(** * Naninovel VS Code extension: launching the language service

    A shallow embedding of [src/language/client.ts].  The file is glue
    between the editor host, Node and the language-client library, so
    the embedding keeps the code's own logic (which call is made, with
    which arguments, in which order, and what is thrown) and leaves every
    call that crosses into the host as an event answered by the host.

    - a program is a finite tree of host calls ([Prog]);
    - the host is any state machine answering those calls ([host]);
    - a run records the calls and their answers in order ([trace]).

    Conventions:
    - a call that returns a promise is answered with the settled state
      of the promise, and [await] throws the reason of a rejected one;
      a synchronous call into the host returns a value of its declared
      type;
    - objects the host creates and owns (the extension context, the
      client, disposables, the action context of the telemetry library)
      are opaque; reading or writing one of them is a host call;
    - [path.resolve] and [parseError] are pure functions of the platform;
    - the exported [launchLanguageServiceWithProgressReport] hands
      [launchLanguageService] to [vscode.window.withProgress]; that call
      is a host call of its own kind ([windowE]). *)

From Stdlib Require Import Ascii String List ZArith QArith Lia.
Import ListNotations.
Local Open Scope string_scope.
Local Open Scope list_scope.

Set Implicit Arguments.

(** ** Values thrown and promises *)

(** What a [throw] or a rejected promise carries: an [Error] object
    created by this file with [new Error(message)], or a value the host
    rejected a promise with. *)
Inductive Thrown (HostError : Type) : Type :=
| NewError (message : string)
| Rejection (reason : HostError).
Arguments NewError {HostError} message.
Arguments Rejection {HostError} reason.

(** The state of a promise once it is settled. *)
Inductive Settled (HostError X : Type) : Type :=
| Fulfilled (value : X)
| Rejected (reason : HostError).
Arguments Fulfilled {HostError X} value.
Arguments Rejected {HostError X} reason.

(** How a function call ends. *)
Inductive Completion (HostError R : Type) : Type :=
| Returned (value : R)
| Threw (thrown : Thrown HostError).
Arguments Returned {HostError R} value.
Arguments Threw {HostError R} thrown.

(** ** Programs over host calls *)

Inductive Prog (HostError : Type) (E : Type -> Type) (R : Type) : Type :=
| Ret (r : R)
| Throw (thrown : Thrown HostError)
| Vis (X : Type) (e : E X) (k : X -> Prog HostError E R).
Arguments Ret {HostError E R} r.
Arguments Throw {HostError E R} thrown.
Arguments Vis {HostError E R X} e k.

Fixpoint bind {H E A B} (m : Prog H E A) (f : A -> Prog H E B) : Prog H E B :=
  match m with
  | Ret a => f a
  | Throw t => Throw t
  | Vis e k => Vis e (fun x => bind (k x) f)
  end.

Definition call {H E X} (e : E X) : Prog H E X := Vis e Ret.

(** [await p]: the value of a fulfilled promise, or its rejection thrown. *)
Definition await {H E X} (p : Settled H X) : Prog H E X :=
  match p with
  | Fulfilled x => Ret x
  | Rejected r => Throw (Rejection r)
  end.

Declare Scope prog_scope.
Delimit Scope prog_scope with prog.
Notation "x <- m ;; k" := (bind m (fun x => k))
  (at level 61, m at next level, right associativity) : prog_scope.
Notation "m ;; k" := (bind m (fun _ => k))
  (at level 61, right associativity) : prog_scope.
Local Open Scope prog_scope.

(** ** Running a program against a host

    The host is a state machine: it answers a call from its current
    state and moves to a next state.  A run stops at the first [throw];
    nothing in the source catches. *)

Inductive Entry (E : Type -> Type) : Type :=
| Called (X : Type) (e : E X) (answer : X).
Arguments Called {E X} e answer.

Record Run (H : Type) (E : Type -> Type) (World R : Type) : Type := {
  outcome : Completion H R;
  trace : list (Entry E);
  final : World
}.

Section Exec.

Context {H : Type} {E : Type -> Type} {World : Type}.
Variable host : forall X, E X -> World -> X * World.

Fixpoint exec {R} (p : Prog H E R) (w : World) : Run H E World R :=
  match p with
  | Ret r => {| outcome := Returned r; trace := []; final := w |}
  | Throw t => {| outcome := Threw t; trace := []; final := w |}
  | Vis e k =>
      let answered := host e w in
      let rest := exec (k (fst answered)) (snd answered) in
      {| outcome := outcome rest;
         trace := Called e (fst answered) :: trace rest;
         final := final rest |}
  end.

End Exec.

(** ** Data of the language-client library and the host *)

(** [vscode-languageclient]: [ErrorAction] and [CloseAction]. *)
Inductive ErrorAction := Continue | Shutdown.
Inductive CloseAction := DoNotRestart | Restart.

(** [vscode-jsonrpc]: the part of [Message] the code reads. *)
Record Message := { jsonrpc : string }.

(** [lsp.Executable] as the object literal of the source builds it. *)
Record Executable := { command : string; args : list string }.

(** [lsp.ServerOptions] in its [{ run, debug }] form. *)
Record ServerOptions := { run : Executable; debug : Executable }.

Record DocumentFilter := { language : string }.

Record SynchronizeOptions (FileSystemWatcher : Type) :=
  { fileEvents : FileSystemWatcher }.

(** [lsp.LanguageClientOptions] with the fields the source sets. *)
Record LanguageClientOptions (OutputChannel FileSystemWatcher : Type) := {
  documentSelector : list DocumentFilter;
  progressOnInitialization : bool;
  outputChannel : OutputChannel;
  synchronize : SynchronizeOptions FileSystemWatcher
}.

(** Argument and result of the ["dotnet.acquire"] command. *)
Record DotnetAcquireContext :=
  { version : string; requestingExtensionId : string }.
Record DotnetAcquireResult := { dotnetPath : string }.

(** A telemetry notification of the language client. *)
Record TelemetryData (Properties : Type) :=
  { eventName : string; properties : Properties }.

(** [IParsedError] of [vscode-azureextensionui], the field read here. *)
Record IParsedError := { message : string }.

(** The platform: the types of the objects the host hands out (opaque
    to this code) and the two pure library functions the code calls. *)
Class Platform := {
  ExtensionContext : Type;
  OutputChannel : Type;
  FileSystemWatcher : Type;
  LanguageClient : Type;
  Disposable : Type;
  DefaultErrorHandler : Type;
  IActionContext : Type;
  HostError : Type;
  (** [{ [key: string]: string | undefined }], never inspected here. *)
  TelemetryProperties : Type;
  (** Node's [path.resolve] with one argument, in the working
      directory of the process (see [atCwd]). *)
  path_resolve : string -> string;
  (** [parseError] of [vscode-azureextensionui]. *)
  parseError : HostError -> IParsedError
}.

(** The [ErrorHandler] interface of the language client: two methods,
    each a program over the host calls [E]. *)
Record ErrorHandler (H : Type) (E : Type -> Type) := {
  error : H -> option Message -> option Z -> Prog H E ErrorAction;
  closed : Prog H E CloseAction
}.

Section Extension.

Context {platform : Platform}.

(** ** Host calls

    One constructor for each call the source makes outside itself; the
    index is the type of the answer.  Calls returning a promise answer
    with its settled state. *)
#[warnings="-register-all"]
Inductive hostE : Type -> Type :=
(* getLogger().info / getLogger().debug *)
| LoggerInfo (text : string) : hostE unit
| LoggerDebug (text : string) : hostE unit
(* vscode.commands.executeCommand<{ dotnetPath: string }> *)
| ExecuteCommand (commandId : string) (arg : DotnetAcquireContext)
  : hostE (Settled HostError (option DotnetAcquireResult))
(* process.env[name] *)
| ProcessEnv (name : string) : hostE (option string)
(* context.asAbsolutePath *)
| AsAbsolutePath (context : ExtensionContext) (relativePath : string)
  : hostE string
(* fs.existsSync *)
| ExistsSync (path : string) : hostE bool
(* vscode.workspace.createFileSystemWatcher *)
| CreateFileSystemWatcher (globPattern : string) : hostE FileSystemWatcher
(* new lsp.LanguageClient *)
| NewLanguageClient (id name : string) (serverOptions : ServerOptions)
    (clientOptions : LanguageClientOptions OutputChannel FileSystemWatcher)
  : hostE LanguageClient
(* Date.now *)
| DateNow : hostE Z
(* client.createDefaultErrorHandler *)
| CreateDefaultErrorHandler (client : LanguageClient)
  : hostE DefaultErrorHandler
(* client.onTelemetry *)
| OnTelemetry (client : LanguageClient)
    (listener : TelemetryData TelemetryProperties -> Prog HostError hostE unit)
  : hostE Disposable
(* client.clientOptions.errorHandler = ... *)
| SetErrorHandler (client : LanguageClient)
    (handler : ErrorHandler HostError hostE)
  : hostE unit
(* callWithTelemetryAndErrorHandlingSync *)
| CallWithTelemetryAndErrorHandlingSync (callbackId : string)
    (callback : IActionContext -> Prog HostError hostE unit)
  : hostE unit
(* context.errorHandling.suppressDisplay = ... *)
| SetSuppressDisplay (context : IActionContext) (value : bool) : hostE unit
(* context.telemetry.properties = ... *)
| SetTelemetryProperties (context : IActionContext)
    (value : TelemetryProperties)
  : hostE unit
(* context.telemetry.properties[key] = ... *)
| SetTelemetryProperty (context : IActionContext) (key value : string)
  : hostE unit
(* context.telemetry.measurements[key] = ... *)
| SetTelemetryMeasurement (context : IActionContext) (key : string) (value : Q)
  : hostE unit
(* defaultErrorHandler.error / defaultErrorHandler.closed *)
| DefaultError (handler : DefaultErrorHandler) (err : HostError)
    (msg : option Message) (count : option Z)
  : hostE ErrorAction
| DefaultClosed (handler : DefaultErrorHandler) : hostE CloseAction
(* client.start *)
| ClientStart (client : LanguageClient) : hostE Disposable
(* context.subscriptions.push *)
| SubscriptionsPush (context : ExtensionContext) (item : Disposable)
  : hostE unit
(* client.onReady *)
| ClientOnReady (client : LanguageClient) : hostE (Settled HostError unit).

Definition Program := Prog HostError hostE.

(** ** The source, function by function *)

Definition languageId := "naniscript".
Definition dotnetRuntimeVersion := "3.1".
Definition extensionId := "Elringus.naninovel".
Definition packagedServerPath := "server/NaninovelLanguageServer.dll".

Definition ensureDotnetRuntimeInstalled : Program string :=
  promise <- call (ExecuteCommand "dotnet.acquire"
               {| version := dotnetRuntimeVersion;
                  requestingExtensionId := extensionId |}) ;;
  result <- await promise ;;
  match result with
  | None =>
      Throw (NewError
        ("Failed to install .NET runtime v" ++ dotnetRuntimeVersion ++ "."))
  | Some r => Ret (path_resolve (dotnetPath r))
  end.

Definition ensureLanguageServerExists (context : ExtensionContext)
  : Program string :=
  env <- call (ProcessEnv "NANINOVEL_LANGUAGE_SERVER_PATH") ;;
  languageServerPath <-
    match env with
    | Some local => Ret local
    | None => call (AsAbsolutePath context packagedServerPath)
    end ;;
  found <- call (ExistsSync languageServerPath) ;;
  if negb found then
    Throw (NewError
      ("Language server does not exist at '" ++ languageServerPath ++ "'."))
  else Ret (path_resolve languageServerPath).

(** The listener given to [client.onTelemetry]. *)
Definition telemetryCallback (telemetryData : TelemetryData TelemetryProperties)
  (telemetryActionContext : IActionContext) : Program unit :=
  call (SetSuppressDisplay telemetryActionContext true) ;;
  call (SetTelemetryProperties telemetryActionContext
          (properties telemetryData)).

Definition telemetryListener (telemetryData : TelemetryData TelemetryProperties)
  : Program unit :=
  call (CallWithTelemetryAndErrorHandlingSync (eventName telemetryData)
          (telemetryCallback telemetryData)).

(** The callbacks of the installed error handler.  [secondsSinceStart]
    is kept as the exact quotient of the millisecond difference by 1000. *)
Definition errorCallback (startTime : Z) (err : HostError)
  (msg : option Message) (context : IActionContext) : Program unit :=
  call (SetTelemetryProperty context "jsonrpcMessage"
          match msg with Some m => jsonrpc m | None => EmptyString end) ;;
  now <- call DateNow ;;
  call (SetTelemetryMeasurement context "secondsSinceStart"
          ((now - startTime) # 1000)) ;;
  Throw (NewError ("Error: " ++ message (parseError err))).

Definition closedCallback (startTime : Z) (context : IActionContext)
  : Program unit :=
  now <- call DateNow ;;
  call (SetTelemetryMeasurement context "secondsSinceStart"
          ((now - startTime) # 1000)) ;;
  Throw (NewError "Connection closed").

Definition errorHandler (startTime : Z)
  (defaultErrorHandler : DefaultErrorHandler)
  : ErrorHandler HostError hostE :=
  {| error := fun err msg count =>
       call (CallWithTelemetryAndErrorHandlingSync "naniscript.lsp-error"
               (errorCallback startTime err msg)) ;;
       call (DefaultError defaultErrorHandler err msg count);
     closed :=
       call (CallWithTelemetryAndErrorHandlingSync "naniscript.lsp-error"
               (closedCallback startTime)) ;;
       call (DefaultClosed defaultErrorHandler) |}.

Definition configureTelemetry (client : LanguageClient) : Program unit :=
  startTime <- call DateNow ;;
  defaultErrorHandler <- call (CreateDefaultErrorHandler client) ;;
  call (OnTelemetry client telemetryListener) ;;
  call (SetErrorHandler client (errorHandler startTime defaultErrorHandler)).

Definition launchLanguageService (context : ExtensionContext)
  (channel : OutputChannel) : Program unit :=
  call (LoggerInfo "Launching Naninovel language service...") ;;
  dotnetCommandPath <- ensureDotnetRuntimeInstalled ;;
  call (LoggerDebug
          ("Found dotnet command at '" ++ dotnetCommandPath ++ "'.")) ;;
  languageServerPath <- ensureLanguageServerExists context ;;
  call (LoggerDebug
          ("Found language server at '" ++ languageServerPath ++ "'.")) ;;
  let serverExecutable :=
    {| command := dotnetCommandPath; args := [languageServerPath] |} in
  let serverOptions :=
    {| run := serverExecutable; debug := serverExecutable |} in
  watcher <- call (CreateFileSystemWatcher "**/*.nani") ;;
  let clientOptions :=
    {| documentSelector := [ {| language := languageId |} ];
       progressOnInitialization := true;
       outputChannel := channel;
       synchronize := {| fileEvents := watcher |} |} in
  client <- call (NewLanguageClient languageId "NaniScript"
                    serverOptions clientOptions) ;;
  configureTelemetry client ;;
  started <- call (ClientStart client) ;;
  call (SubscriptionsPush context started) ;;
  call (LoggerInfo "Naninovel language service started.") ;;
  ready <- call (ClientOnReady client) ;;
  await ready ;;
  call (LoggerInfo "Naninovel language service ready.").

End Extension.

(** ** Reading a trace

    Each projection keeps the calls of one kind, with their answers,
    in the order they were made. *)

Section Observations.

Context {platform : Platform}.

Definition Trace := list (Entry hostE).

Definition pick {A} (f : forall X, hostE X -> X -> option A) (t : Trace)
  : list A :=
  flat_map (fun en => match en with
                      | Called e a => match f _ e a with
                                      | Some x => [x]
                                      | None => []
                                      end
                      end) t.

(** Answers of the ["dotnet.acquire"] command. *)
Definition acquisitions
  : Trace -> list (Settled HostError (option DotnetAcquireResult)) :=
  pick (fun X e =>
    match e in hostE X return X -> option _ with
    | ExecuteCommand _ _ => fun a => Some a
    | _ => fun _ => None
    end).

(** Reads of [process.env]: name and value. *)
Definition envReads : Trace -> list (string * option string) :=
  pick (fun X e =>
    match e in hostE X return X -> option _ with
    | ProcessEnv n => fun a => Some (n, a)
    | _ => fun _ => None
    end).

(** Calls of [context.asAbsolutePath]: argument and result. *)
Definition absolutePaths : Trace -> list (string * string) :=
  pick (fun X e =>
    match e in hostE X return X -> option _ with
    | AsAbsolutePath _ rel => fun a => Some (rel, a)
    | _ => fun _ => None
    end).

(** Calls of [existsSync]: path asked and answer. *)
Definition existsChecks : Trace -> list (string * bool) :=
  pick (fun X e =>
    match e in hostE X return X -> option _ with
    | ExistsSync p => fun a => Some (p, a)
    | _ => fun _ => None
    end).

(** Clients constructed: constructor arguments and the client made. *)
Definition constructions
  : Trace -> list (string * string * ServerOptions
                   * LanguageClientOptions OutputChannel FileSystemWatcher
                   * LanguageClient) :=
  pick (fun X e =>
    match e in hostE X return X -> option _ with
    | NewLanguageClient i n so co => fun c => Some (i, n, so, co, c)
    | _ => fun _ => None
    end).

(** Calls of [client.start]: the client and the disposable returned. *)
Definition starts : Trace -> list (LanguageClient * Disposable) :=
  pick (fun X e =>
    match e in hostE X return X -> option _ with
    | ClientStart c => fun d => Some (c, d)
    | _ => fun _ => None
    end).

(** Calls of [context.subscriptions.push]. *)
Definition pushes : Trace -> list (ExtensionContext * Disposable) :=
  pick (fun X e =>
    match e in hostE X return X -> option _ with
    | SubscriptionsPush c d => fun _ => Some (c, d)
    | _ => fun _ => None
    end).

(** Listeners registered with [client.onTelemetry]. *)
Definition listeners
  : Trace -> list (LanguageClient
                   * (TelemetryData TelemetryProperties -> Program unit)) :=
  pick (fun X e =>
    match e in hostE X return X -> option _ with
    | OnTelemetry c l => fun _ => Some (c, l)
    | _ => fun _ => None
    end).

(** Default error handlers created for a client. *)
Definition fallbacks : Trace -> list (LanguageClient * DefaultErrorHandler) :=
  pick (fun X e =>
    match e in hostE X return X -> option _ with
    | CreateDefaultErrorHandler c => fun d => Some (c, d)
    | _ => fun _ => None
    end).

(** Error handlers installed in [client.clientOptions]. *)
Definition installedHandlers
  : Trace -> list (LanguageClient * ErrorHandler HostError hostE) :=
  pick (fun X e =>
    match e in hostE X return X -> option _ with
    | SetErrorHandler c h => fun _ => Some (c, h)
    | _ => fun _ => None
    end).

(** The steps of the activation sequence, each with what it produced.
    [Acquire id ok]: the command [id] was executed, [ok] when it gave a
    runtime.  [Verify found]: the existence check and its answer. *)
Inductive Step :=
| Acquire (commandId : string) (ok : bool)
| Verify (found : bool)
| Construct (client : LanguageClient)
| Start (client : LanguageClient) (started : Disposable)
| Push (context : ExtensionContext) (item : Disposable)
| AwaitReady (client : LanguageClient) (ok : bool).

Definition steps : Trace -> list Step :=
  pick (fun X e =>
    match e in hostE X return X -> option _ with
    | ExecuteCommand id _ => fun a =>
        Some (Acquire id
                match a with Fulfilled (Some _) => true | _ => false end)
    | ExistsSync _ => fun b => Some (Verify b)
    | NewLanguageClient _ _ _ _ => fun c => Some (Construct c)
    | ClientStart c => fun d => Some (Start c d)
    | SubscriptionsPush c d => fun _ => Some (Push c d)
    | ClientOnReady c => fun s =>
        Some (AwaitReady c match s with Fulfilled _ => true | _ => false end)
    | _ => fun _ => None
    end).

(** What a run took in from outside: the answers to the acquisition
    command, to the reads of [process.env], to [context.asAbsolutePath]
    and to [existsSync]. *)
Definition observedInputs (t : Trace) :=
  (acquisitions t, envReads t, absolutePaths t, existsChecks t).

(** The configuration of each client constructed, as this code decides
    it: identifier, name, server options (runtime path and server path),
    document selector, progress flag and output channel.  The file
    watcher in the client options is an object the host allocates. *)
Definition configurations (t : Trace) :=
  map (fun made =>
         match made with
         | (i, n, so, co, _) =>
             (i, n, so, documentSelector co, progressOnInitialization co,
              outputChannel co)
         end)
      (constructions t).

(** ** The runs the source can make

    The shape of every run, as outcome and trace: which calls are made,
    with which arguments, and how the function ends.  The lemmas
    [*_runs] below show that every run against every host has one of
    these shapes. *)

Definition acquireCall :=
  ExecuteCommand "dotnet.acquire"
    {| version := "3.1"; requestingExtensionId := "Elringus.naninovel" |}.

Definition envCall := ProcessEnv "NANINOVEL_LANGUAGE_SERVER_PATH".

Definition runtimeMissing : Thrown HostError :=
  NewError "Failed to install .NET runtime v3.1.".

Definition serverMissing (path : string) : Thrown HostError :=
  NewError ("Language server does not exist at '" ++ path ++ "'.").

(** How [ensureLanguageServerExists] ends once [existsSync] has
    answered [found] for the path [selected]. *)
Definition verdict (selected : string) (found : bool)
  : Completion HostError string :=
  if found then Returned (path_resolve selected)
  else Threw (serverMissing selected).

Inductive Located (context : ExtensionContext)
  : Completion HostError string -> Trace -> Prop :=
| located_local (local : string) (found : bool) :
    Located context (verdict local found)
      [ Called envCall (Some local);
        Called (ExistsSync local) found ]
| located_packaged (packaged : string) (found : bool) :
    Located context (verdict packaged found)
      [ Called envCall None;
        Called (AsAbsolutePath context packagedServerPath) packaged;
        Called (ExistsSync packaged) found ].

Inductive Configured (client : LanguageClient) : Trace -> Prop :=
| configured (startTime : Z) (fallback : DefaultErrorHandler)
    (registration : Disposable) :
    Configured client
      [ Called DateNow startTime;
        Called (CreateDefaultErrorHandler client) fallback;
        Called (OnTelemetry client telemetryListener) registration;
        Called (SetErrorHandler client (errorHandler startTime fallback)) tt ].

Definition executableFor (dotnetCommandPath languageServerPath : string) :=
  {| command := dotnetCommandPath; args := [languageServerPath] |}.

Definition clientOptionsFor (channel : OutputChannel)
  (watcher : FileSystemWatcher) :=
  {| documentSelector := [ {| language := "naniscript" |} ];
     progressOnInitialization := true;
     outputChannel := channel;
     synchronize := {| fileEvents := watcher |} |}.

Inductive Launched (context : ExtensionContext) (channel : OutputChannel)
  : Completion HostError unit -> Trace -> Prop :=
| launched_rejected (reason : HostError) :
    Launched context channel (Threw (Rejection reason))
      [ Called (LoggerInfo "Launching Naninovel language service...") tt;
        Called acquireCall (Rejected reason) ]
| launched_no_runtime :
    Launched context channel (Threw runtimeMissing)
      [ Called (LoggerInfo "Launching Naninovel language service...") tt;
        Called acquireCall (Fulfilled None) ]
| launched_no_server (r : DotnetAcquireResult) (thrown : Thrown HostError)
    (locating : Trace) :
    Located context (Threw thrown) locating ->
    Launched context channel (Threw thrown)
      ([ Called (LoggerInfo "Launching Naninovel language service...") tt;
         Called acquireCall (Fulfilled (Some r));
         Called (LoggerDebug ("Found dotnet command at '"
                              ++ path_resolve (dotnetPath r) ++ "'.")) tt ]
       ++ locating)
| launched_started (r : DotnetAcquireResult) (languageServerPath : string)
    (locating configuring : Trace) (watcher : FileSystemWatcher)
    (client : LanguageClient) (started : Disposable)
    (ready : Settled HostError unit) :
    Located context (Returned languageServerPath) locating ->
    Configured client configuring ->
    let exe :=
      executableFor (path_resolve (dotnetPath r)) languageServerPath in
    Launched context channel
      match ready with
      | Fulfilled _ => Returned tt
      | Rejected reason => Threw (Rejection reason)
      end
      ([ Called (LoggerInfo "Launching Naninovel language service...") tt;
         Called acquireCall (Fulfilled (Some r));
         Called (LoggerDebug ("Found dotnet command at '"
                              ++ path_resolve (dotnetPath r) ++ "'.")) tt ]
       ++ locating
       ++ [ Called (LoggerDebug ("Found language server at '"
                                 ++ languageServerPath ++ "'.")) tt;
            Called (CreateFileSystemWatcher "**/*.nani") watcher;
            Called (NewLanguageClient "naniscript" "NaniScript"
                      {| run := exe; debug := exe |}
                      (clientOptionsFor channel watcher)) client ]
       ++ configuring
       ++ [ Called (ClientStart client) started;
            Called (SubscriptionsPush context started) tt;
            Called (LoggerInfo "Naninovel language service started.") tt;
            Called (ClientOnReady client) ready ]
       ++ match ready with
          | Fulfilled _ =>
              [ Called (LoggerInfo "Naninovel language service ready.") tt ]
          | Rejected _ => []
          end).

End Observations.

(** ** A POSIX host

    One concrete platform and a family of hosts on it, to run the code
    on concrete inputs.  [resolve] follows Node's POSIX [path.resolve]
    for one argument and an absolute working directory. *)

Module Posix.

Definition isAbsolute (p : string) : bool :=
  match p with
  | String "/"%char _ => true
  | _ => false
  end.

Fixpoint segments (p : string) : list string :=
  match p with
  | EmptyString => [EmptyString]
  | String c rest =>
      if Ascii.eqb c "/"%char then EmptyString :: segments rest
      else match segments rest with
           | s :: ss => String c s :: ss
           | [] => [String c EmptyString]
           end
  end.

Fixpoint join (segs : list string) : string :=
  match segs with
  | [] => EmptyString
  | [s] => s
  | s :: rest => s ++ "/" ++ join rest
  end.

(** The innermost directory is the head of [stack]. *)
Definition enter (stack : list string) (seg : string) : list string :=
  if String.eqb seg EmptyString then stack
  else if String.eqb seg "." then stack
  else if String.eqb seg ".." then tl stack
  else seg :: stack.

Definition normalize (segs : list string) : list string :=
  rev (fold_left enter segs []).

Definition resolve (cwd p : string) : string :=
  "/" ++ join (normalize (if isAbsolute p then segments p
                          else segments cwd ++ segments p)).

Fixpoint hasSlash (s : string) : bool :=
  match s with
  | EmptyString => false
  | String c rest => Ascii.eqb c "/"%char || hasSlash rest
  end.

(** A segment of a normalized path: not empty, not [.] or [..], and
    without a separator inside. *)
Definition proper (seg : string) : Prop :=
  seg <> EmptyString /\ seg <> "." /\ seg <> ".." /\ hasSlash seg = false.

(** Absolute and free of empty, [.] and [..] segments. *)
Definition normalized (p : string) : Prop :=
  isAbsolute p = true /\
  exists segs, Forall proper segs /\ p = ("/" ++ join segs)%string.

Definition cwd := "/home/dev/NaninovelVSCode".

Definition platform : Platform := {|
  ExtensionContext := string;
  OutputChannel := string;
  FileSystemWatcher := string;
  LanguageClient := nat;
  Disposable := nat;
  DefaultErrorHandler := nat;
  IActionContext := nat;
  HostError := string;
  TelemetryProperties := list (string * option string);
  path_resolve := resolve cwd;
  parseError := fun e => {| message := e |}
|}.

(** What distinguishes one host of the family from another. *)
Record Scenario := {
  acquired : Settled string (option DotnetAcquireResult);
  environment : list (string * string);
  disk : list string;
  clock : Z;
  readiness : Settled string unit
}.

Fixpoint lookup (name : string) (env : list (string * string))
  : option string :=
  match env with
  | [] => None
  | (k, v) :: rest => if String.eqb k name then Some v else lookup name rest
  end.

(** [existsSync] is false on the empty path, as in Node.  The disk is
    a list of normalized file paths and the lookup is lexical: this
    host knows no directories, links or trailing separators. *)
Definition onDisk (s : Scenario) (p : string) : bool :=
  if String.eqb p EmptyString then false
  else existsb (String.eqb (resolve cwd p)) (disk s).

(** The state of the host is the next fresh object identifier. *)
Definition host (s : Scenario) (X : Type) (e : hostE (platform := platform) X)
  : nat -> X * nat :=
  match e in hostE X return nat -> X * nat with
  | LoggerInfo _ | LoggerDebug _ => fun n => (tt, n)
  | ExecuteCommand _ _ => fun n => (acquired s, n)
  | ProcessEnv name => fun n => (lookup name (environment s), n)
  | AsAbsolutePath extensionPath rel =>
      fun n => ((extensionPath ++ "/" ++ rel)%string, n)
  | ExistsSync p => fun n => (onDisk s p, n)
  | CreateFileSystemWatcher glob => fun n => (glob, n)
  | NewLanguageClient _ _ _ _ => fun n => (n, S n)
  | DateNow => fun n => (clock s + Z.of_nat n, n)%Z
  | CreateDefaultErrorHandler _ => fun n => (n, S n)
  | OnTelemetry _ _ => fun n => (n, S n)
  | SetErrorHandler _ _ => fun n => (tt, n)
  | CallWithTelemetryAndErrorHandlingSync _ _ => fun n => (tt, n)
  | SetSuppressDisplay _ _ => fun n => (tt, n)
  | SetTelemetryProperties _ _ => fun n => (tt, n)
  | SetTelemetryProperty _ _ _ => fun n => (tt, n)
  | SetTelemetryMeasurement _ _ _ => fun n => (tt, n)
  | DefaultError _ _ _ count =>
      fun n => (match count with
                | Some c => if (c <=? 3)%Z then Continue else Shutdown
                | None => Shutdown
                end, S n)
  | DefaultClosed _ => fun n => (Restart, S n)
  | ClientStart _ => fun n => (n, S n)
  | SubscriptionsPush _ _ => fun n => (tt, n)
  | ClientOnReady _ => fun n => (readiness s, n)
  end.

Definition dotnet := {| dotnetPath := "/usr/share/dotnet/dotnet" |}.

Definition extensionPath := "/home/dev/.vscode/extensions/naninovel".

Definition packaged :=
  "/home/dev/.vscode/extensions/naninovel/server/NaninovelLanguageServer.dll".

(** Everything in place, no override. *)
Definition installed : Scenario := {|
  acquired := Fulfilled (Some dotnet);
  environment := [("HOME", "/home/dev")];
  disk := [packaged; cwd];
  clock := 1000;
  readiness := Fulfilled tt
|}.

(** The override names a local build that exists. *)
Definition overridden : Scenario := {|
  acquired := Fulfilled (Some dotnet);
  environment := [("NANINOVEL_LANGUAGE_SERVER_PATH", "bin/Server.dll")];
  disk := [packaged; "/home/dev/NaninovelVSCode/bin/Server.dll"];
  clock := 1000;
  readiness := Fulfilled tt
|}.

(** The override is set to the empty string; the packaged server exists. *)
Definition emptyOverride : Scenario := {|
  acquired := Fulfilled (Some dotnet);
  environment := [("NANINOVEL_LANGUAGE_SERVER_PATH", EmptyString)];
  disk := [packaged; cwd];
  clock := 1000;
  readiness := Fulfilled tt
|}.

(** The acquisition command resolves to [undefined]. *)
Definition noRuntime : Scenario := {|
  acquired := Fulfilled None;
  environment := [];
  disk := [packaged];
  clock := 1000;
  readiness := Fulfilled tt
|}.

(** The server never becomes ready. *)
Definition neverReady : Scenario := {|
  acquired := Fulfilled (Some dotnet);
  environment := [];
  disk := [packaged];
  clock := 5000;
  readiness := Rejected "server exited"
|}.

Definition launch (s : Scenario) :=
  exec (host s)
    (launchLanguageService (platform := platform) extensionPath "Naninovel")
    0%nat.

End Posix.

(** ** Further readings of a trace *)

Section FurtherObservations.

Context {platform : Platform}.

Inductive LogLevel := LevelInfo | LevelDebug.

(** Lines written to the logger, with their level. *)
Definition logs : Trace -> list (LogLevel * string) :=
  pick (fun X e =>
    match e in hostE X return X -> option _ with
    | LoggerInfo text => fun _ => Some (LevelInfo, text)
    | LoggerDebug text => fun _ => Some (LevelDebug, text)
    | _ => fun _ => None
    end).

(** File system watchers created: glob pattern and watcher. *)
Definition watchers : Trace -> list (string * FileSystemWatcher) :=
  pick (fun X e =>
    match e in hostE X return X -> option _ with
    | CreateFileSystemWatcher glob => fun a => Some (glob, a)
    | _ => fun _ => None
    end).

(** Calls of [client.onReady] with the settled promise. *)
Definition readiness
  : Trace -> list (LanguageClient * Settled HostError unit) :=
  pick (fun X e =>
    match e in hostE X return X -> option _ with
    | ClientOnReady c => fun s => Some (c, s)
    | _ => fun _ => None
    end).

(** Commands executed: identifier and argument. *)
Definition commandsExecuted : Trace -> list (string * DotnetAcquireContext) :=
  pick (fun X e =>
    match e in hostE X return X -> option _ with
    | ExecuteCommand i a => fun _ => Some (i, a)
    | _ => fun _ => None
    end).

(** Readings of [Date.now]. *)
Definition clockReads : Trace -> list Z :=
  pick (fun X e =>
    match e in hostE X return X -> option _ with
    | DateNow => fun a => Some a
    | _ => fun _ => None
    end).

(** Actions handed to [callWithTelemetryAndErrorHandlingSync]. *)
Definition reported
  : Trace -> list (string * (IActionContext -> Program unit)) :=
  pick (fun X e =>
    match e in hostE X return X -> option _ with
    | CallWithTelemetryAndErrorHandlingSync i cb => fun _ => Some (i, cb)
    | _ => fun _ => None
    end).

(** Writes to an action context, one projection for each field. *)
Definition measurementWrites : Trace -> list (IActionContext * string * Q) :=
  pick (fun X e =>
    match e in hostE X return X -> option _ with
    | SetTelemetryMeasurement c k v => fun _ => Some (c, k, v)
    | _ => fun _ => None
    end).

Definition propertyWrites : Trace -> list (IActionContext * string * string) :=
  pick (fun X e =>
    match e in hostE X return X -> option _ with
    | SetTelemetryProperty c k v => fun _ => Some (c, k, v)
    | _ => fun _ => None
    end).

Definition displayWrites : Trace -> list (IActionContext * bool) :=
  pick (fun X e =>
    match e in hostE X return X -> option _ with
    | SetSuppressDisplay c b => fun _ => Some (c, b)
    | _ => fun _ => None
    end).

Definition propertiesReplaced
  : Trace -> list (IActionContext * TelemetryProperties) :=
  pick (fun X e =>
    match e in hostE X return X -> option _ with
    | SetTelemetryProperties c p => fun _ => Some (c, p)
    | _ => fun _ => None
    end).

Definition isStart (en : Entry hostE) : bool :=
  match en with
  | Called e _ => match e with ClientStart _ => true | _ => false end
  end.

(** The part of a trace before the first call of [client.start]. *)
Fixpoint beforeStart (t : Trace) : Trace :=
  match t with
  | [] => []
  | en :: rest => if isStart en then [] else en :: beforeStart rest
  end.

Definition isWatcherCreation (en : Entry hostE) : bool :=
  match en with
  | Called e _ =>
      match e with CreateFileSystemWatcher _ => true | _ => false end
  end.

(** The part of a trace before the first file watcher is created. *)
Fixpoint beforeWatcher (t : Trace) : Trace :=
  match t with
  | [] => []
  | en :: rest => if isWatcherCreation en then [] else en :: beforeWatcher rest
  end.

End FurtherObservations.

(** ** The exported entry point *)

(** [vscode.ProgressLocation]. *)
Inductive ProgressLocation := SourceControl | Window | Notification.

(** [vscode.ProgressOptions], the fields the source sets. *)
Record ProgressOptions := { title : string; location : ProgressLocation }.

Section ProgressReport.

Context {platform : Platform}.

(** [vscode.window.withProgress]: the task is the body of the async
    arrow function; the answer is the settled state of the promise the
    call returns, rejected with whatever value was thrown. *)
Inductive windowE : Type -> Type :=
| WithProgress (options : ProgressOptions) (task : Program unit)
  : windowE (Settled (Thrown HostError) unit).

(** [await] of a promise that may be rejected with any thrown value. *)
Definition awaitThrown {E X} (p : Settled (Thrown HostError) X)
  : Prog HostError E X :=
  match p with
  | Fulfilled x => Ret x
  | Rejected thrown => Throw thrown
  end.

Definition launchLanguageServiceWithProgressReport
  (context : ExtensionContext) (channel : OutputChannel)
  : Prog HostError windowE unit :=
  promise <- call (WithProgress
               {| title := "Launching Naninovel language service...";
                  location := Notification |}
               (launchLanguageService context channel)) ;;
  awaitThrown promise.

(** The promise of an async function, from how its body ended. *)
Definition settle {R} (c : Completion HostError R)
  : Settled (Thrown HostError) R :=
  match c with
  | Returned v => Fulfilled v
  | Threw thrown => Rejected thrown
  end.

(** A window that runs the task it is given on [host] and settles as
    the task does. *)
Definition withProgress {World : Type}
  (host : forall X, hostE X -> World -> X * World)
  (X : Type) (e : windowE X) : World -> X * World :=
  match e in windowE X return World -> X * World with
  | WithProgress _ task =>
      fun w => let r := exec host task w in (settle (outcome r), final r)
  end.

End ProgressReport.

(** ** The working directory

    [path.resolve] resolves a relative argument against the working
    directory of the process.  Within one run that directory is fixed,
    and [path_resolve] is the function of the platform.  To compare
    runs of different processes, the platform is taken at a working
    directory: the same host objects, and [path.resolve] as a function
    of the directory and the argument. *)
Definition atCwd (base : Platform)
  (resolveFrom : string -> string -> string) (cwd : string) : Platform := {|
  ExtensionContext := @ExtensionContext base;
  OutputChannel := @OutputChannel base;
  FileSystemWatcher := @FileSystemWatcher base;
  LanguageClient := @LanguageClient base;
  Disposable := @Disposable base;
  DefaultErrorHandler := @DefaultErrorHandler base;
  IActionContext := @IActionContext base;
  HostError := @HostError base;
  TelemetryProperties := @TelemetryProperties base;
  path_resolve := resolveFrom cwd;
  parseError := @parseError base
|}.

(** Further hosts of the POSIX family. *)
Module PosixCases.

(** The acquisition command is not registered: the promise rejects. *)
Definition commandMissing : Posix.Scenario := {|
  Posix.acquired := Rejected "command 'dotnet.acquire' not found";
  Posix.environment := [];
  Posix.disk := [Posix.packaged];
  Posix.clock := 1000;
  Posix.readiness := Fulfilled tt
|}.

(** The acquisition answers with an empty runtime path. *)
Definition emptyRuntimePath : Posix.Scenario := {|
  Posix.acquired := Fulfilled (Some {| dotnetPath := EmptyString |});
  Posix.environment := [];
  Posix.disk := [Posix.packaged];
  Posix.clock := 1000;
  Posix.readiness := Fulfilled tt
|}.

Definition report (s : Posix.Scenario) :=
  exec (withProgress (Posix.host s))
    (launchLanguageServiceWithProgressReport (platform := Posix.platform)
       Posix.extensionPath "Naninovel")
    0%nat.

(** The override names a relative path that is not on disk. *)
Definition missingOverride : Posix.Scenario := {|
  Posix.acquired := Fulfilled (Some Posix.dotnet);
  Posix.environment := [("NANINOVEL_LANGUAGE_SERVER_PATH", "bin/Server.dll")];
  Posix.disk := [Posix.packaged];
  Posix.clock := 1000;
  Posix.readiness := Fulfilled tt
|}.

End PosixCases.

(** The POSIX hosts again, for a process started in a given working
    directory. *)
Module PosixAt.

Definition platform (cwd : string) : Platform :=
  atCwd Posix.platform Posix.resolve cwd.

Definition onDisk (cwd : string) (s : Posix.Scenario) (p : string) : bool :=
  if String.eqb p EmptyString then false
  else existsb (String.eqb (Posix.resolve cwd p)) (Posix.disk s).

Definition host (cwd : string) (s : Posix.Scenario) (X : Type)
  (e : hostE (platform := platform cwd) X) : nat -> X * nat :=
  match e in hostE X return nat -> X * nat with
  | LoggerInfo _ | LoggerDebug _ => fun n => (tt, n)
  | ExecuteCommand _ _ => fun n => (Posix.acquired s, n)
  | ProcessEnv name => fun n => (Posix.lookup name (Posix.environment s), n)
  | AsAbsolutePath extensionPath rel =>
      fun n => ((extensionPath ++ "/" ++ rel)%string, n)
  | ExistsSync p => fun n => (onDisk cwd s p, n)
  | CreateFileSystemWatcher glob => fun n => (glob, n)
  | NewLanguageClient _ _ _ _ => fun n => (n, S n)
  | DateNow => fun n => (Posix.clock s + Z.of_nat n, n)%Z
  | CreateDefaultErrorHandler _ => fun n => (n, S n)
  | OnTelemetry _ _ => fun n => (n, S n)
  | SetErrorHandler _ _ => fun n => (tt, n)
  | CallWithTelemetryAndErrorHandlingSync _ _ => fun n => (tt, n)
  | SetSuppressDisplay _ _ => fun n => (tt, n)
  | SetTelemetryProperties _ _ => fun n => (tt, n)
  | SetTelemetryProperty _ _ _ => fun n => (tt, n)
  | SetTelemetryMeasurement _ _ _ => fun n => (tt, n)
  | DefaultError _ _ _ count =>
      fun n => (match count with
                | Some c => if (c <=? 3)%Z then Continue else Shutdown
                | None => Shutdown
                end, S n)
  | DefaultClosed _ => fun n => (Restart, S n)
  | ClientStart _ => fun n => (n, S n)
  | SubscriptionsPush _ _ => fun n => (tt, n)
  | ClientOnReady _ => fun n => (Posix.readiness s, n)
  end.

Definition launch (cwd : string) (s : Posix.Scenario) :=
  exec (@host cwd s)
    (launchLanguageService (platform := platform cwd)
       Posix.extensionPath "Naninovel")
    0%nat.



End PosixAt.

(** * Properties *)

Section ExecFacts.

Context {H : Type} {E : Type -> Type} {World : Type}.
Variable host : forall X, E X -> World -> X * World.

(** A sequence runs its first part, and the rest only if that returned. *)
Lemma exec_bind {A B} (m : Prog H E A) (f : A -> Prog H E B) (w : World) :
  exec host (bind m f) w =
  let first := exec host m w in
  match outcome first with
  | Returned a =>
      let rest := exec host (f a) (final first) in
      {| outcome := outcome rest;
         trace := trace first ++ trace rest;
         final := final rest |}
  | Threw t =>
      {| outcome := Threw t; trace := trace first; final := final first |}
  end.
Proof.
  revert w.
  induction m as [a | t | X e k IH]; intro w; cbn.
  - destruct (exec host (f a) w); reflexivity.
  - reflexivity.
  - rewrite IH. cbn.
    destruct (outcome (exec host (k (fst (host e w))) (snd (host e w))));
      reflexivity.
Qed.

Lemma exec_call {X} (e : E X) (w : World) :
  exec host (call (H:=H) e) w =
  {| outcome := Returned (fst (host e w));
     trace := [Called e (fst (host e w))];
     final := snd (host e w) |}.
Proof. reflexivity. Qed.

End ExecFacts.

Section LaunchRuns.

Context {platform : Platform} {World : Type}.
Variable host : forall X, hostE X -> World -> X * World.

(** Name every answer of the host that the goal mentions, earliest
    call first. *)
Ltac answer :=
  match goal with
  | |- context [host ?e ?w] =>
      lazymatch w with
      | context [host] => fail
      | _ => let a := fresh "a" in let w' := fresh "w" in
             destruct (host e w) as [a w'] eqn:?; cbn [fst snd] in *
      end
  end.

Lemma ensureDotnetRuntimeInstalled_run (w : World) :
  exec host ensureDotnetRuntimeInstalled w =
  {| outcome :=
       match fst (host acquireCall w) with
       | Fulfilled (Some r) => Returned (path_resolve (dotnetPath r))
       | Fulfilled None =>
           Threw (NewError "Failed to install .NET runtime v3.1.")
       | Rejected reason => Threw (Rejection reason)
       end;
     trace := [Called acquireCall (fst (host acquireCall w))];
     final := snd (host acquireCall w) |}.
Proof.
  unfold ensureDotnetRuntimeInstalled, acquireCall.
  unfold dotnetRuntimeVersion, extensionId. cbn.
  destruct (host _ w) as [[[r|]|reason] w']; reflexivity.
Qed.

Lemma ensureLanguageServerExists_runs (context : ExtensionContext) (w : World) :
  let r := exec host (ensureLanguageServerExists context) w in
  Located context (outcome r) (trace r).
Proof.
  unfold ensureLanguageServerExists. cbn.
  destruct (host (ProcessEnv _) w) as [[local|] w1]; cbn.
  - destruct (host (ExistsSync local) w1) as [found w2]; cbn.
    replace (outcome _) with (verdict local found)
      by (destruct found; reflexivity).
    replace (trace _) with (@nil (Entry hostE))
      by (destruct found; reflexivity).
    apply located_local.
  - destruct (host (AsAbsolutePath _ _) w1) as [packaged w2]; cbn.
    destruct (host (ExistsSync packaged) w2) as [found w3]; cbn.
    replace (outcome _) with (verdict packaged found)
      by (destruct found; reflexivity).
    replace (trace _) with (@nil (Entry hostE))
      by (destruct found; reflexivity).
    apply located_packaged.
Qed.

(** The same run, from the answers of the host. *)
Lemma ensureLanguageServerExists_run (context : ExtensionContext)
  (w : World) :
  exec host (ensureLanguageServerExists context) w =
  let env := host envCall w in
  let selected :=
    match fst env with
    | Some local => (local, snd env)
    | None => host (AsAbsolutePath context packagedServerPath) (snd env)
    end in
  let checked := host (ExistsSync (fst selected)) (snd selected) in
  {| outcome := verdict (fst selected) (fst checked);
     trace :=
       Called envCall (fst env)
       :: match fst env with
          | Some _ => []
          | None =>
              [Called (AsAbsolutePath context packagedServerPath)
                 (fst selected)]
          end
       ++ [Called (ExistsSync (fst selected)) (fst checked)];
     final := snd checked |}.
Proof.
  unfold ensureLanguageServerExists, envCall. cbn.
  destruct (host (ProcessEnv _) w) as [[local|] w1]; cbn.
  - destruct (host (ExistsSync local) w1) as [[] w2]; reflexivity.
  - destruct (host (AsAbsolutePath _ _) w1) as [packaged w2]; cbn.
    destruct (host (ExistsSync packaged) w2) as [[] w3]; reflexivity.
Qed.

Lemma configureTelemetry_runs (client : LanguageClient) (w : World) :
  let r := exec host (configureTelemetry client) w in
  outcome r = Returned tt /\ Configured client (trace r).
Proof.
  unfold configureTelemetry. cbn.
  repeat answer.
  match goal with u : unit |- _ => destruct u end.
  split; [reflexivity | apply configured].
Qed.

Lemma launchLanguageService_runs (context : ExtensionContext)
  (channel : OutputChannel) (w : World) :
  let r := exec host (launchLanguageService context channel) w in
  Launched context channel (outcome r) (trace r).
Proof.
  unfold launchLanguageService.
  rewrite exec_bind, exec_call. cbn [outcome trace final].
  destruct (host (LoggerInfo _) w) as [[] w1]. cbn [fst snd].
  rewrite exec_bind, ensureDotnetRuntimeInstalled_run.
  cbn [outcome trace final].
  destruct (host acquireCall w1) as [[[r|]|reason] w2]; cbn [fst snd].
  3: apply launched_rejected.
  2: apply launched_no_runtime.
  rewrite exec_bind, exec_call. cbn [outcome trace final].
  destruct (host (LoggerDebug _) w2) as [[] w3]. cbn [fst snd].
  rewrite exec_bind.
  pose proof (ensureLanguageServerExists_runs context w3) as HL.
  destruct (exec host (ensureLanguageServerExists context) w3) as [o tl w4].
  cbn [outcome trace final] in *.
  destruct o as [languageServerPath | thrown].
  2: { apply (@launched_no_server _ context channel r thrown tl HL). }
  rewrite exec_bind, exec_call. cbn [outcome trace final].
  destruct (host (LoggerDebug _) w4) as [[] w5]. cbn [fst snd].
  rewrite exec_bind, exec_call. cbn [outcome trace final].
  destruct (host (CreateFileSystemWatcher _) w5) as [watcher w6]. cbn [fst snd].
  rewrite exec_bind, exec_call. cbn [outcome trace final].
  destruct (host (NewLanguageClient _ _ _ _) w6) as [client w7]. cbn [fst snd].
  rewrite exec_bind.
  destruct (configureTelemetry_runs client w7) as [HO HC].
  destruct (exec host (configureTelemetry client) w7) as [o tc w8].
  cbn [outcome trace final] in *. subst o.
  rewrite exec_bind, exec_call. cbn [outcome trace final].
  destruct (host (ClientStart client) w8) as [started w9]. cbn [fst snd].
  rewrite exec_bind, exec_call. cbn [outcome trace final].
  destruct (host (SubscriptionsPush _ _) w9) as [[] w10]. cbn [fst snd].
  rewrite exec_bind, exec_call. cbn [outcome trace final].
  destruct (host (LoggerInfo _) w10) as [[] w11]. cbn [fst snd].
  rewrite exec_bind, exec_call. cbn [outcome trace final].
  destruct (host (ClientOnReady client) w11) as [ready w12]. cbn [fst snd].
  rewrite exec_bind.
  pose proof (@launched_started _ context channel r languageServerPath tl tc
                watcher client started ready HL HC) as HS.
  destruct ready as [[]|reason]; cbn.
  - destruct (host (LoggerInfo _) w12) as [[] w13]. cbn [fst snd].
    exact HS.
  - exact HS.
Qed.
End LaunchRuns.

(** Take a run apart into the shapes it can have. *)
Ltac shapes :=
  repeat match goal with
  | H : Launched _ _ _ _ |- _ => inversion H; clear H; subst
  | H : Located _ _ _ |- _ => inversion H; clear H; subst
  | H : Configured _ _ |- _ => inversion H; clear H; subst
  | H : verdict _ ?found = _ |- _ =>
      destruct found; unfold verdict in H; inversion H; clear H; subst
  | ready : Settled HostError unit |- _ => destruct ready as [[] | ?]
  end.

Ltac launched :=
  cbv zeta;
  repeat match goal with
  | |- context [exec ?h (launchLanguageService ?c ?ch) ?w] =>
      let Hrun := fresh "Hrun" in
      pose proof (launchLanguageService_runs h c ch w) as Hrun;
      cbv zeta in Hrun;
      destruct (exec h (launchLanguageService c ch) w);
      cbn [outcome trace final] in *
  end;
  intros;
  shapes.

(** Compute what a projection keeps of an explicit trace. *)
Ltac observe :=
  cbv [acquisitions envReads absolutePaths existsChecks constructions starts
       pushes listeners installedHandlers fallbacks steps
       observedInputs configurations map
       pick flat_map app acquireCall envCall runtimeMissing serverMissing]
    in *.

(** Routine goals about membership in short lists and about outcomes. *)
Ltac finish :=
  repeat match goal with
  | |- _ /\ _ => split
  | |- _ <-> _ => split
  | |- ~ _ => intro
  | |- _ -> _ => intro
  | |- forall _, _ => intro
  end;
  cbn [In] in *;
  repeat match goal with
  | H : _ \/ _ |- _ => destruct H
  | H : exists _, _ |- _ => destruct H
  | H : _ /\ _ |- _ => destruct H
  | H : False |- _ => destruct H
  | H : (_, _) = (_, _) |- _ => inversion H; clear H; subst
  | H : Threw _ = _ |- _ => inversion H; clear H; subst
  | H : Returned _ = _ |- _ => inversion H; clear H; subst
  | H : Fulfilled _ = _ |- _ => inversion H; clear H; subst
  | H : Rejected _ = _ |- _ => inversion H; clear H; subst
  | H : @eq (list _) _ _ |- _ => inversion H; clear H; subst
  end;
  try solve [ reflexivity | discriminate | eauto 6 ].

Section Claims.

Context {platform : Platform} {World : Type}.
Variable host : forall X, hostE X -> World -> X * World.

(** C1.  Every run of [launchLanguageService] goes through the steps in
    one order: acquire the runtime, verify that the server file exists,
    construct the client, start it, push the disposable that [start]
    returned onto [context.subscriptions], await readiness of that same
    client.  A step that fails is the last one of the run and the run
    ends in a throw: nothing after a failed acquisition, nothing after a
    failed existence check. *)
Theorem launch_steps_in_order (context : ExtensionContext)
  (channel : OutputChannel) (w : World) :
  let r := exec host (launchLanguageService context channel) w in
  (steps (trace r) = [Acquire "dotnet.acquire" false] /\
   exists thrown, outcome r = Threw thrown)
  \/
  (steps (trace r) = [Acquire "dotnet.acquire" true; Verify false] /\
   exists thrown, outcome r = Threw thrown)
  \/
  (exists client started ok,
     steps (trace r) =
       [ Acquire "dotnet.acquire" true; Verify true; Construct client;
         Start client started; Push context started;
         AwaitReady client ok ] /\
     if ok then outcome r = Returned tt
     else exists thrown, outcome r = Threw thrown).
Proof.
  launched.
  1, 2: left; split; [reflexivity | eexists; reflexivity].
  1, 2: right; left; split; [reflexivity | eexists; reflexivity].
  1, 3: right; right; exists client, started, true;
    split; reflexivity.
  all: right; right; exists client, started, false;
    split; [reflexivity | eexists; reflexivity].
Qed.

(** An [Error] of the code's own making, read off the trace: it is
    thrown exactly when the trace holds a falsy acquisition or a failed
    existence check, each made once. *)
Lemma own_errors_in_trace (context : ExtensionContext)
  (channel : OutputChannel) (w : World) :
  let r := exec host (launchLanguageService context channel) w in
  ((exists text, outcome r = Threw (NewError text)) <->
   (In (Fulfilled None) (acquisitions (trace r)) \/
    exists path, In (path, false) (existsChecks (trace r))))
  /\
  (In (Fulfilled None) (acquisitions (trace r)) ->
   outcome r = Threw (NewError "Failed to install .NET runtime v3.1.") /\
   acquisitions (trace r) = [Fulfilled None] /\
   existsChecks (trace r) = [])
  /\
  (forall path, In (path, false) (existsChecks (trace r)) ->
   outcome r =
     Threw (NewError ("Language server does not exist at '" ++ path ++ "'."))
   /\
   existsChecks (trace r) = [(path, false)] /\
   length (acquisitions (trace r)) = 1%nat).
Proof.
  launched; observe; finish.
Qed.

(** C2, as amended.  How [launchLanguageService] ends, from the answers
    of the host.  The acquisition command is executed once.
    - Its promise rejects: the reason is thrown, no path is checked.
    - It resolves to a falsy result: the code throws its own [Error],
      naming runtime version 3.1; no path is checked.
    - It gives a runtime: the selected server path (the value of
      [NANINOVEL_LANGUAGE_SERVER_PATH], or what [context.asAbsolutePath]
      returns for the packaged path) is asked of [existsSync], once, as
      selected, before [path.resolve].  If the answer is [false] the
      code throws its own [Error], naming that path.  If it is [true]
      the code throws no error of its own: the run goes on to
      [client.onReady] and returns, or throws the reason that promise
      was rejected with.
    So an [Error] of the code's own making is thrown exactly when one
    of the two checks fails, and the only other throws are rejections
    passed on. *)
Theorem launch_throws_iff_setup_fails (context : ExtensionContext)
  (channel : OutputChannel) (w : World) :
  let r := exec host (launchLanguageService context channel) w in
  let acquired :=
    host acquireCall
      (snd (host (LoggerInfo "Launching Naninovel language service...") w)) in
  (acquisitions (trace r) = [fst acquired] /\
   match fst acquired with
   | Rejected reason =>
       outcome r = Threw (Rejection reason) /\ existsChecks (trace r) = []
   | Fulfilled None =>
       outcome r = Threw (NewError "Failed to install .NET runtime v3.1.")
       /\ existsChecks (trace r) = []
   | Fulfilled (Some runtime) =>
       let env :=
         host envCall
           (snd (host (LoggerDebug
                         ("Found dotnet command at '"
                          ++ path_resolve (dotnetPath runtime) ++ "'."))
                   (snd acquired))) in
       let selected :=
         match fst env with
         | Some local => (local, snd env)
         | None =>
             host (AsAbsolutePath context "server/NaninovelLanguageServer.dll")
               (snd env)
         end in
       let found := fst (host (ExistsSync (fst selected)) (snd selected)) in
       existsChecks (trace r) = [(fst selected, found)] /\
       if found then
         exists client ready,
           readiness (trace r) = [(client, ready)] /\
           outcome r =
             match ready with
             | Fulfilled _ => Returned tt
             | Rejected reason => Threw (Rejection reason)
             end
       else
         outcome r =
           Threw (NewError
                    ("Language server does not exist at '"
                     ++ fst selected ++ "'."))
   end)
  /\
  ((exists text, outcome r = Threw (NewError text)) <->
   (In (Fulfilled None) (acquisitions (trace r)) \/
    exists path, In (path, false) (existsChecks (trace r)))).
Proof.
  cbv zeta. split; [ | apply own_errors_in_trace ].
  unfold launchLanguageService.
  rewrite exec_bind, exec_call. cbn [outcome trace final].
  destruct (host (LoggerInfo _) w) as [[] w1]. cbn [fst snd].
  rewrite exec_bind, ensureDotnetRuntimeInstalled_run.
  cbn [outcome trace final].
  destruct (host acquireCall w1) as [[[runtime|]|reason] w2]; cbn [fst snd].
  2, 3: repeat split; reflexivity.
  rewrite exec_bind, exec_call. cbn [outcome trace final].
  destruct (host (LoggerDebug _) w2) as [[] w3]. cbn [fst snd].
  rewrite exec_bind, ensureLanguageServerExists_run.
  cbv zeta. cbn [outcome trace final].
  unfold packagedServerPath.
  destruct (host envCall w3) as [[local|] w4]; cbn [fst snd];
    [ | destruct (host (AsAbsolutePath _ _) w4) as [local w5];
        cbn [fst snd] ];
    (destruct (host (ExistsSync local) _) as [[] w6]; cbn [fst snd];
     unfold verdict; cbn [outcome trace final];
     [ | split; [reflexivity | split; reflexivity] ]).
  all: repeat (rewrite exec_bind, exec_call; cbn [outcome trace final];
               match goal with
               | |- context [host ?e ?w] =>
                   lazymatch w with
                   | context [host] => fail
                   | _ => destruct (host e w) as [? ?]
                   end
               end; cbn [fst snd]).
  all: rewrite exec_bind;
    match goal with
    | |- context [exec host (configureTelemetry ?c) ?w] =>
        destruct (configureTelemetry_runs host c w) as [HO HC];
        destruct (exec host (configureTelemetry c) w) as [o tc wc];
        cbn [outcome trace final] in *; subst o; shapes
    end.
  all: repeat (rewrite exec_bind, exec_call; cbn [outcome trace final];
               match goal with
               | |- context [host ?e ?w] =>
                   lazymatch w with
                   | context [host] => fail
                   | _ => destruct (host e w) as [? ?]
                   end
               end; cbn [fst snd]).
  all: rewrite exec_bind;
    match goal with
    | ready : Settled HostError unit |- _ => destruct ready as [[] | reason]
    end;
    cbn [await exec outcome trace final];
    try rewrite exec_call; cbn [outcome trace final];
    try (match goal with
         | |- context [host ?e ?w] => destruct (host e w) as [[] ?]
         end; cbn [fst snd]);
    unfold readiness; observe;
    (split; [reflexivity | split; [reflexivity | ]]);
    do 2 eexists; split; reflexivity.
Qed.


(** C3.  [ensureLanguageServerExists] reads the environment variable
    [NANINOVEL_LANGUAGE_SERVER_PATH] first.  If it is defined, its value
    is the server path: it is the path checked with [existsSync], and
    [context.asAbsolutePath] is not called.  Otherwise the server path
    is what [context.asAbsolutePath] returns for the fixed relative path
    [server/NaninovelLanguageServer.dll]. *)
Theorem server_path_selection (context : ExtensionContext) (w : World) :
  let r := exec host (ensureLanguageServerExists context) w in
  match fst (host (ProcessEnv "NANINOVEL_LANGUAGE_SERVER_PATH") w) with
  | Some local =>
      exists found,
        trace r =
          [ Called (ProcessEnv "NANINOVEL_LANGUAGE_SERVER_PATH") (Some local);
            Called (ExistsSync local) found ] /\
        outcome r = verdict local found
  | None =>
      exists packaged found,
        trace r =
          [ Called (ProcessEnv "NANINOVEL_LANGUAGE_SERVER_PATH") None;
            Called (AsAbsolutePath context "server/NaninovelLanguageServer.dll")
              packaged;
            Called (ExistsSync packaged) found ] /\
        outcome r = verdict packaged found
  end.
Proof.
  unfold ensureLanguageServerExists. cbn.
  destruct (host (ProcessEnv _) w) as [[local|] w1]; cbn.
  - destruct (host (ExistsSync local) w1) as [found w2]; cbn.
    exists found. destruct found; split; reflexivity.
  - destruct (host (AsAbsolutePath _ _) w1) as [packaged w2]; cbn.
    destruct (host (ExistsSync packaged) w2) as [found w3]; cbn.
    exists packaged, found. destruct found; split; reflexivity.
Qed.

(** C4.  [configureTelemetry] installs one error handler on the client.
    For every error event and for every connection-closed event, that
    handler reports the action ["naniscript.lsp-error"] to
    [callWithTelemetryAndErrorHandlingSync], with a callback that throws
    the error to report, and then returns what the default error handler
    of the same client answers for the same arguments. *)
Theorem error_handler_reports_then_defers (client : LanguageClient)
  (w : World) :
  let t := trace (exec host (configureTelemetry client) w) in
  exists fallback handler,
    fallbacks t = [(client, fallback)] /\
    installedHandlers t = [(client, handler)] /\
    (forall err msg count w',
       let r := exec host (error handler err msg count) w' in
       exists callback action,
         trace r =
           [ Called (CallWithTelemetryAndErrorHandlingSync
                       "naniscript.lsp-error" callback) tt;
             Called (DefaultError fallback err msg count) action ] /\
         outcome r = Returned action /\
         forall context w'',
           outcome (exec host (callback context) w'') =
           Threw (NewError ("Error: " ++ message (parseError err)))) /\
    (forall w',
       let r := exec host (closed handler) w' in
       exists callback action,
         trace r =
           [ Called (CallWithTelemetryAndErrorHandlingSync
                       "naniscript.lsp-error" callback) tt;
             Called (DefaultClosed fallback) action ] /\
         outcome r = Returned action /\
         forall context w'',
           outcome (exec host (callback context) w'') =
           Threw (NewError "Connection closed")).
Proof.
  cbv zeta.
  destruct (configureTelemetry_runs host client w) as [_ HC].
  destruct (exec host (configureTelemetry client) w) as [o t wf].
  cbn [trace] in *. shapes.
  exists fallback, (errorHandler startTime fallback).
  split; [reflexivity | split; [reflexivity | split]].
  - intros err msg count w'. cbn.
    destruct (host _ w') as [[] w1]; cbn.
    destruct (host (DefaultError _ _ _ _) w1) as [action w2]; cbn.
    eexists; exists action.
    split; [reflexivity | split; [reflexivity | ]].
    intros context w''. cbn. reflexivity.
  - intros w'. cbn.
    destruct (host _ w') as [[] w1]; cbn.
    destruct (host (DefaultClosed _) w1) as [action w2]; cbn.
    eexists; exists action.
    split; [reflexivity | split; [reflexivity | ]].
    intros context w''. cbn. reflexivity.
Qed.

(** C5.  [configureTelemetry] registers one telemetry listener on the
    client.  For every telemetry event the listener makes one call to
    [callWithTelemetryAndErrorHandlingSync], under the event's own name;
    the callback sets [errorHandling.suppressDisplay] to [true], sets
    [telemetry.properties] to the event's properties as received, does
    nothing else, and returns. *)
Theorem telemetry_is_passed_through (client : LanguageClient) (w : World) :
  let t := trace (exec host (configureTelemetry client) w) in
  exists listener,
    listeners t = [(client, listener)] /\
    forall (data : TelemetryData TelemetryProperties) w',
      let r := exec host (listener data) w' in
      outcome r = Returned tt /\
      exists callback,
        trace r =
          [ Called (CallWithTelemetryAndErrorHandlingSync
                      (eventName data) callback) tt ] /\
        forall context w'',
          let c := exec host (callback context) w'' in
          outcome c = Returned tt /\
          trace c =
            [ Called (SetSuppressDisplay context true) tt;
              Called (SetTelemetryProperties context (properties data)) tt ].
Proof.
  cbv zeta.
  destruct (configureTelemetry_runs host client w) as [_ HC].
  destruct (exec host (configureTelemetry client) w) as [o t wf].
  cbn [trace] in *. shapes.
  exists telemetryListener.
  split; [reflexivity | ].
  intros data w'. cbn.
  destruct (host _ w') as [[] w1]; cbn.
  split; [reflexivity | ].
  eexists. split; [reflexivity | ].
  intros context w''. cbn.
  destruct (host _ w'') as [[] w2]; cbn.
  destruct (host _ w2) as [[] w3]; cbn.
  split; reflexivity.
Qed.

(** C6.  A run constructs a client exactly when the acquisition gave a
    runtime and the server file was found, and then it constructs one.
    Its server options name, for [run] and for [debug] alike, the
    executable whose command is the acquired [dotnetPath] passed through
    [path.resolve] and whose only argument is the server path that was
    checked, passed through [path.resolve].  The client started is the
    client constructed. *)
Theorem server_executable (context : ExtensionContext)
  (channel : OutputChannel) (w : World) :
  let t := trace (exec host (launchLanguageService context channel) w) in
  (constructions t = [] /\ starts t = [] /\
   ~ exists r selected,
       acquisitions t = [Fulfilled (Some r)] /\
       existsChecks t = [(selected, true)])
  \/
  (exists r selected watcher client started,
     acquisitions t = [Fulfilled (Some r)] /\
     existsChecks t = [(selected, true)] /\
     let exe := {| command := path_resolve (dotnetPath r);
                   args := [path_resolve selected] |} in
     constructions t =
       [ ("naniscript", "NaniScript", {| run := exe; debug := exe |},
          clientOptionsFor channel watcher, client) ] /\
     starts t = [(client, started)]).
Proof.
  launched; observe.
  1-4: left; finish.
  all: right; do 5 eexists; repeat split; reflexivity.
Qed.

(** C8.  When [NANINOVEL_LANGUAGE_SERVER_PATH] is defined and
    [existsSync] answers [false] for its value, whatever the value is,
    the empty string included, [ensureLanguageServerExists] throws the
    error naming that value; it does not call [context.asAbsolutePath]
    and checks no other path. *)
Theorem override_is_authoritative (context : ExtensionContext) (w : World)
  (local : string) :
  let env := host (ProcessEnv "NANINOVEL_LANGUAGE_SERVER_PATH") w in
  fst env = Some local ->
  fst (host (ExistsSync local) (snd env)) = false ->
  let r := exec host (ensureLanguageServerExists context) w in
  outcome r =
    Threw (NewError ("Language server does not exist at '" ++ local ++ "'."))
  /\
  absolutePaths (trace r) = [] /\
  existsChecks (trace r) = [(local, false)].
Proof.
  cbv zeta. intros Henv Hmissing.
  unfold ensureLanguageServerExists. cbn.
  destruct (host (ProcessEnv _) w) as [env w1]; cbn in *. subst env. cbn.
  destruct (host (ExistsSync local) w1) as [found w2]; cbn in *. subst found.
  cbn. repeat split; reflexivity.
Qed.

(** C9.  When [launchLanguageService] throws an error of its own, or the
    acquisition command rejects, the run has constructed no client,
    started none, and pushed nothing onto [context.subscriptions]. *)
Theorem setup_failure_is_atomic (context : ExtensionContext)
  (channel : OutputChannel) (w : World) :
  let r := exec host (launchLanguageService context channel) w in
  (exists text, outcome r = Threw (NewError text)) \/
  (exists reason, In (Rejected reason) (acquisitions (trace r))) ->
  constructions (trace r) = [] /\
  starts (trace r) = [] /\
  pushes (trace r) = [].
Proof.
  launched; observe; finish.
Qed.

(** C10.  Whatever holds of every result of [path.resolve] (being
    absolute and normalized, by its contract) holds of the path
    [ensureDotnetRuntimeInstalled] returns, which is [path.resolve] of
    the acquired [dotnetPath]; of the path [ensureLanguageServerExists]
    returns, which is [path.resolve] of the path it checked; and of the
    command and of every argument of the executables handed to the
    client constructor. *)
Theorem returned_paths_are_resolved (Good : string -> Prop)
  (resolved : forall p, Good (path_resolve p))
  (context : ExtensionContext) (channel : OutputChannel) (w : World) :
  (forall path,
     outcome (exec host ensureDotnetRuntimeInstalled w) = Returned path ->
     Good path /\
     exists r,
       acquisitions (trace (exec host ensureDotnetRuntimeInstalled w)) =
         [Fulfilled (Some r)] /\
       path = path_resolve (dotnetPath r))
  /\
  (forall path,
     outcome (exec host (ensureLanguageServerExists context) w)
       = Returned path ->
     Good path /\
     exists selected,
       existsChecks (trace (exec host (ensureLanguageServerExists context) w))
         = [(selected, true)] /\
       path = path_resolve selected)
  /\
  Forall (fun made =>
            let options := snd (fst (fst made)) in
            Good (command (run options)) /\
            Forall Good (args (run options)) /\
            Good (command (debug options)) /\
            Forall Good (args (debug options)))
    (constructions
       (trace (exec host (launchLanguageService context channel) w))).
Proof.
  split; [ | split].
  - intros path. rewrite ensureDotnetRuntimeInstalled_run.
    cbn [outcome trace].
    destruct (fst (host acquireCall w)) as [[r|]|reason]; intro Hout;
      inversion Hout; subst.
    split; [apply resolved | exists r; split; reflexivity].
  - intros path.
    pose proof (ensureLanguageServerExists_runs host context w) as HL.
    cbv zeta in HL.
    destruct (exec host (ensureLanguageServerExists context) w) as [o t wf].
    cbn [outcome trace] in *. intro Hout. subst o.
    inversion HL as [local found Hv | packaged found Hv]; subst;
      destruct found; inversion Hv; subst;
      (split; [apply resolved | eexists; split; reflexivity]).
  - launched; observe; repeat constructor; apply resolved.
Qed.

End Claims.

Section TwoRuns.

Context {base : Platform} {World1 World2 : Type}.
Variable resolveFrom : string -> string -> string.


End TwoRuns.

(** * The POSIX host: its [path.resolve], and the claims run on it *)

Section PosixResolve.

Import Posix.

Lemma enter_proper (stack : list string) (seg : string) :
  hasSlash seg = false ->
  Forall proper stack -> Forall proper (enter stack seg).
Proof.
  intros Hseg Hstack. unfold enter.
  destruct (String.eqb_spec seg EmptyString) as [|Hempty]; [assumption | ].
  destruct (String.eqb_spec seg ".") as [|Hdot]; [assumption | ].
  destruct (String.eqb_spec seg "..") as [|Hup].
  - destruct Hstack; [constructor | assumption].
  - constructor; [repeat split; assumption | assumption].
Qed.

Lemma segments_no_slash (p : string) :
  Forall (fun seg => hasSlash seg = false) (segments p).
Proof.
  induction p as [|c rest IH]; cbn.
  - repeat constructor.
  - destruct (Ascii.eqb c "/") eqn:Hc.
    + constructor; [reflexivity | exact IH].
    + destruct (segments rest) as [|seg segs].
      * repeat constructor. cbn. rewrite Hc. reflexivity.
      * inversion IH as [|? ? Hseg Hsegs]; subst.
        constructor; [cbn; rewrite Hc; exact Hseg | exact Hsegs].
Qed.

Lemma normalize_proper (segs : list string) :
  Forall (fun seg => hasSlash seg = false) segs ->
  Forall proper (normalize segs).
Proof.
  intro Hsegs. unfold normalize. apply Forall_rev.
  assert (Hgen : forall stack,
             Forall proper stack -> Forall proper (fold_left enter segs stack)).
  { induction Hsegs as [|seg rest Hseg Hrest IH]; intros stack Hstack; cbn.
    - assumption.
    - apply IH, enter_proper; assumption. }
  apply Hgen. constructor.
Qed.

(** The model of [path.resolve] meets the contract of the real one: its
    result is absolute and normalized, whatever it is given. *)
Lemma resolve_normalized (workingDirectory p : string) :
  normalized (resolve workingDirectory p).
Proof.
  unfold normalized, resolve. split.
  - reflexivity.
  - eexists. split; [ | reflexivity].
    apply normalize_proper.
    destruct (isAbsolute p).
    + apply segments_no_slash.
    + apply Forall_app. split; apply segments_no_slash.
Qed.

End PosixResolve.

#[local] Existing Instance Posix.platform.

Example installed_run :
  outcome (Posix.launch Posix.installed) = Returned tt /\
  steps (trace (Posix.launch Posix.installed)) =
    [ Acquire "dotnet.acquire" true; Verify true; Construct 0%nat;
      Start 0%nat 3%nat; Push Posix.extensionPath 3%nat;
      AwaitReady 0%nat true ] /\
  map (fun made => snd (fst (fst made)))
      (constructions (trace (Posix.launch Posix.installed))) =
    [ {| run := {| command := "/usr/share/dotnet/dotnet";
                   args := [Posix.packaged] |};
         debug := {| command := "/usr/share/dotnet/dotnet";
                     args := [Posix.packaged] |} |} ].
Proof. repeat split; vm_compute; reflexivity. Qed.

Example overridden_run :
  map (fun made => args (run (snd (fst (fst made)))))
      (constructions (trace (Posix.launch Posix.overridden))) =
    [ ["/home/dev/NaninovelVSCode/bin/Server.dll"] ] /\
  absolutePaths (trace (Posix.launch Posix.overridden)) = [].
Proof. split; vm_compute; reflexivity. Qed.

Example noRuntime_run :
  outcome (Posix.launch Posix.noRuntime) =
    Threw (NewError "Failed to install .NET runtime v3.1.") /\
  steps (trace (Posix.launch Posix.noRuntime)) =
    [Acquire "dotnet.acquire" false].
Proof. split; vm_compute; reflexivity. Qed.

Example neverReady_run :
  outcome (Posix.launch Posix.neverReady) =
    Threw (Rejection "server exited") /\
  length (trace (Posix.launch Posix.neverReady)) = 17%nat.
Proof. split; vm_compute; reflexivity. Qed.

(** C8 on the host whose override is the empty string while the
    packaged server is on disk. *)
Lemma override_is_authoritative_witness :
  let host := Posix.host Posix.emptyOverride in
  let env := host _ (ProcessEnv "NANINOVEL_LANGUAGE_SERVER_PATH") 0%nat in
  let r := exec host (ensureLanguageServerExists Posix.extensionPath) 0%nat in
  fst env = Some EmptyString /\
  fst (host _ (ExistsSync EmptyString) (snd env)) = false /\
  fst (host _ (ExistsSync Posix.packaged) (snd env)) = true /\
  outcome r = Threw (NewError "Language server does not exist at ''.") /\
  absolutePaths (trace r) = [] /\
  existsChecks (trace r) = [(EmptyString, false)].
Proof.
  cbv zeta.
  split; [reflexivity | split; [reflexivity | split; [reflexivity | ]]].
  exact (@override_is_authoritative Posix.platform nat
           (Posix.host Posix.emptyOverride) Posix.extensionPath 0%nat
           EmptyString eq_refl eq_refl).
Defined.

(** C9 on the host whose acquisition command resolves to [undefined]. *)
Lemma setup_failure_is_atomic_witness :
  let r := Posix.launch Posix.noRuntime in
  outcome r = Threw (NewError "Failed to install .NET runtime v3.1.") /\
  constructions (trace r) = [] /\
  starts (trace r) = [] /\
  pushes (trace r) = [].
Proof.
  cbv zeta. split; [reflexivity | ].
  apply (@setup_failure_is_atomic Posix.platform nat
           (Posix.host Posix.noRuntime) Posix.extensionPath "Naninovel" 0%nat).
  left. eexists. reflexivity.
Defined.

(** C10 on the host whose override is a relative path. *)
Lemma returned_paths_are_resolved_witness :
  Forall (fun made =>
            let options := snd (fst (fst made)) in
            Posix.normalized (command (run options)) /\
            Forall Posix.normalized (args (run options)) /\
            Posix.normalized (command (debug options)) /\
            Forall Posix.normalized (args (debug options)))
    (constructions (trace (Posix.launch Posix.overridden))) /\
  length (constructions (trace (Posix.launch Posix.overridden))) = 1%nat.
Proof.
  split; [ | reflexivity].
  apply (@returned_paths_are_resolved Posix.platform nat
           (Posix.host Posix.overridden) Posix.normalized
           (resolve_normalized Posix.cwd)
           Posix.extensionPath "Naninovel" 0%nat).
Defined.

(** C2 as stated fails on the host whose server never becomes ready:
    the acquisition gave a runtime and the server file exists, and
    [launchLanguageService] throws all the same.  And on the host whose
    override names a missing relative path, the message names the path
    as selected, not the path [path.resolve] makes of it. *)
Lemma launch_throws_without_setup_failure :
  (let r := Posix.launch Posix.neverReady in
   (exists thrown, outcome r = Threw thrown) /\
   ~ In (Fulfilled None) (acquisitions (trace r)) /\
   ~ exists path, In (path, false) (existsChecks (trace r)))
  /\
  (let r := Posix.launch PosixCases.missingOverride in
   outcome r =
     Threw (NewError "Language server does not exist at 'bin/Server.dll'.")
   /\
   @path_resolve Posix.platform "bin/Server.dll" <> "bin/Server.dll").
Proof.
  split; cbv zeta.
  - split; [eexists; reflexivity | split].
    + vm_compute. intros [H | []]. discriminate H.
    + intros [path H]. vm_compute in H.
      destruct H as [H | []]. discriminate H.
  - split; [reflexivity | ]. vm_compute. discriminate.
Qed.



(** * Further properties of the code *)

(** [observe], with the further readings of a trace. *)
Ltac observeAll :=
  cbv [logs watchers readiness commandsExecuted clockReads reported
       measurementWrites
       propertyWrites displayWrites propertiesReplaced beforeStart isStart
       beforeWatcher isWatcherCreation
       pick flat_map app] in *;
  observe.

Section Further.

Context {platform : Platform} {World : Type}.
Variable host : forall X, hostE X -> World -> X * World.

(** X1.  When the promise of the acquisition command rejects,
    [launchLanguageService] throws the rejection reason as it is, and
    the run has read no environment variable, checked no path, created
    no file watcher and constructed no client. *)
Theorem acquisition_rejection_propagates (context : ExtensionContext)
  (channel : OutputChannel) (w : World) (reason : HostError) :
  let r := exec host (launchLanguageService context channel) w in
  In (Rejected reason) (acquisitions (trace r)) ->
  outcome r = Threw (Rejection reason) /\
  envReads (trace r) = [] /\
  existsChecks (trace r) = [] /\
  watchers (trace r) = [] /\
  constructions (trace r) = [].
Proof.
  launched; observeAll; finish.
Qed.

(** X2.  When the promise of [client.onReady] rejects,
    [launchLanguageService] throws the rejection reason as it is; by
    then the client has been started and the disposable of that start
    is on [context.subscriptions], and the line saying the service is
    ready is not logged. *)
Theorem readiness_rejection_after_registration
  (context : ExtensionContext) (channel : OutputChannel) (w : World)
  (client : LanguageClient) (reason : HostError) :
  let r := exec host (launchLanguageService context channel) w in
  In (client, Rejected reason) (readiness (trace r)) ->
  outcome r = Threw (Rejection reason) /\
  (exists started,
     starts (trace r) = [(client, started)] /\
     pushes (trace r) = [(context, started)]) /\
  ~ In (LevelInfo, "Naninovel language service ready.") (logs (trace r)).
Proof.
  launched; observeAll; finish.
  all: match goal with H : _ = _ |- _ => discriminate H end.
Qed.

(** X3.  The log tells how far a run got: the line saying the service
    is ready is written exactly when [launchLanguageService] returns,
    and the line saying it has started exactly when the disposable was
    pushed onto [context.subscriptions]. *)
Theorem log_follows_progress (context : ExtensionContext)
  (channel : OutputChannel) (w : World) :
  let r := exec host (launchLanguageService context channel) w in
  (In (LevelInfo, "Naninovel language service ready.") (logs (trace r)) <->
   outcome r = Returned tt) /\
  (In (LevelInfo, "Naninovel language service started.") (logs (trace r)) <->
   pushes (trace r) <> []).
Proof.
  launched; observeAll; finish;
    try match goal with
        | H : _ = _ |- _ => discriminate H
        | H : ?x <> ?x |- _ => destruct (H eq_refl)
        end.
Qed.

(** X4.  The two paths written to the debug log are the paths handed to
    the client: whenever a client is constructed, the log holds the line
    for the command of its executable and the line for its argument. *)
Theorem logged_paths_are_those_used (context : ExtensionContext)
  (channel : OutputChannel) (w : World)
  (i n : string) (options : ServerOptions)
  (co : LanguageClientOptions OutputChannel FileSystemWatcher)
  (client : LanguageClient) :
  let t := trace (exec host (launchLanguageService context channel) w) in
  In (i, n, options, co, client) (constructions t) ->
  exists languageServerPath,
    args (run options) = [languageServerPath] /\
    In (LevelDebug,
        ("Found dotnet command at '" ++ command (run options) ++ "'.")%string)
       (logs t) /\
    In (LevelDebug,
        ("Found language server at '" ++ languageServerPath ++ "'.")%string)
       (logs t).
Proof.
  launched; observeAll; finish;
    eexists; (split; [reflexivity | ]); cbn [command args run In]; auto.
Qed.

(** X5.  A run creates a file watcher only once both setup checks
    have passed.  Either the acquisition gave no runtime or the server
    file was not found, and then the run creates no watcher and
    constructs no client.  Or the acquisition gave a runtime and
    [existsSync] answered [true], both before any watcher was created;
    then the run creates one watcher, for the pattern [**/*.nani],
    before constructing the one client, and that watcher is the
    [synchronize.fileEvents] of the client. *)
Theorem watcher_only_after_setup (context : ExtensionContext)
  (channel : OutputChannel) (w : World) :
  let t := trace (exec host (launchLanguageService context channel) w) in
  (watchers t = [] /\ constructions t = [] /\
   ~ exists r selected,
       acquisitions t = [Fulfilled (Some r)] /\
       existsChecks t = [(selected, true)])
  \/
  (exists r selected watcher i n options co client,
     acquisitions (beforeWatcher t) = [Fulfilled (Some r)] /\
     existsChecks (beforeWatcher t) = [(selected, true)] /\
     acquisitions t = acquisitions (beforeWatcher t) /\
     existsChecks t = existsChecks (beforeWatcher t) /\
     constructions (beforeWatcher t) = [] /\
     watchers t = [("**/*.nani", watcher)] /\
     constructions t = [(i, n, options, co, client)] /\
     fileEvents (synchronize co) = watcher).
Proof.
  launched; observeAll.
  1-4: left; finish.
  all: right; do 8 eexists; repeat split; reflexivity.
Qed.

(** X6.  The error handler and the telemetry listener are in place
    before the client is started: when a client is started, the trace
    up to that call holds the installation of one handler and the
    registration of one listener, both on that client, and nothing is
    installed or registered afterwards. *)
Theorem handlers_installed_before_start (context : ExtensionContext)
  (channel : OutputChannel) (w : World)
  (client : LanguageClient) (started : Disposable) :
  let t := trace (exec host (launchLanguageService context channel) w) in
  In (client, started) (starts t) ->
  (exists handler, installedHandlers (beforeStart t) = [(client, handler)]) /\
  (exists listener, listeners (beforeStart t) = [(client, listener)]) /\
  installedHandlers t = installedHandlers (beforeStart t) /\
  listeners t = listeners (beforeStart t) /\
  starts (beforeStart t) = [].
Proof.
  launched; observeAll; finish.
Qed.

(** X7.  Every path a run asks [existsSync] about is the server path it
    selected: the value of [NANINOVEL_LANGUAGE_SERVER_PATH], or, when
    that is undefined, what [context.asAbsolutePath] returned.  The
    acquired runtime path is never checked. *)
Theorem only_the_server_path_is_checked (context : ExtensionContext)
  (channel : OutputChannel) (w : World) :
  let t := trace (exec host (launchLanguageService context channel) w) in
  forall path found,
    In (path, found) (existsChecks t) ->
    envReads t = [("NANINOVEL_LANGUAGE_SERVER_PATH", Some path)] /\
    absolutePaths t = []
    \/
    envReads t = [("NANINOVEL_LANGUAGE_SERVER_PATH", None)] /\
    absolutePaths t = [("server/NaninovelLanguageServer.dll", path)].
Proof.
  launched; observeAll; finish.
Qed.

(** X8.  A run reads one environment variable at most,
    [NANINOVEL_LANGUAGE_SERVER_PATH], once, and only after the
    acquisition command has given a runtime. *)
Theorem environment_is_read_once (context : ExtensionContext)
  (channel : OutputChannel) (w : World) :
  let t := trace (exec host (launchLanguageService context channel) w) in
  forall name value,
    In (name, value) (envReads t) ->
    name = "NANINOVEL_LANGUAGE_SERVER_PATH" /\
    envReads t = [(name, value)] /\
    exists r, acquisitions t = [Fulfilled (Some r)].
Proof.
  launched; observeAll; finish.
Qed.

(** X9.  What the installed handler reports for a server error.  The
    callback it hands to [callWithTelemetryAndErrorHandlingSync] reads
    the clock once and writes the measurement [secondsSinceStart] as
    the time since [configureTelemetry] read the clock, in seconds; it
    writes the property [jsonrpcMessage] as the [jsonrpc] field of the
    message, or as the empty string when there is no message; it does
    not touch [suppressDisplay] and does not replace the properties.
    The measurement is not negative if the clock has not gone back. *)
Theorem error_report_contents (client : LanguageClient) (w : World) :
  let t := trace (exec host (configureTelemetry client) w) in
  exists startTime handler,
    clockReads t = [startTime] /\
    installedHandlers t = [(client, handler)] /\
    forall err msg count w',
    exists callback,
      reported (trace (exec host (error handler err msg count) w')) =
        [("naniscript.lsp-error", callback)] /\
      forall context w'',
        let c := trace (exec host (callback context) w'') in
        exists now,
          clockReads c = [now] /\
          measurementWrites c =
            [(context, "secondsSinceStart", (now - startTime) # 1000)] /\
          propertyWrites c =
            [(context, "jsonrpcMessage",
              match msg with Some m => jsonrpc m | None => EmptyString end)]
          /\
          displayWrites c = [] /\
          propertiesReplaced c = [] /\
          ((startTime <= now)%Z -> (0 <= (now - startTime) # 1000)%Q).
Proof.
  cbv zeta.
  destruct (configureTelemetry_runs host client w) as [_ HC].
  destruct (exec host (configureTelemetry client) w) as [o t wf].
  cbn [trace] in *. shapes.
  exists startTime, (errorHandler startTime fallback).
  split; [reflexivity | split; [reflexivity | ]].
  intros err msg count w'. cbn.
  eexists. split; [reflexivity | ].
  intros context w''. cbn.
  destruct (host _ w'') as [u w3]; cbn.
  destruct (host DateNow w3) as [now w4]; cbn.
  exists now. repeat split.
  intro Hclock. unfold Qle. cbn. lia.
Qed.

(** X10.  What the installed handler reports for a closed connection.
    The callback reads the clock once and writes the measurement
    [secondsSinceStart] as the time since [configureTelemetry] read the
    clock, in seconds; it writes nothing else.  The measurement is not
    negative if the clock has not gone back. *)
Theorem closed_report_contents (client : LanguageClient) (w : World) :
  let t := trace (exec host (configureTelemetry client) w) in
  exists startTime handler,
    clockReads t = [startTime] /\
    installedHandlers t = [(client, handler)] /\
    forall w',
    exists callback,
      reported (trace (exec host (closed handler) w')) =
        [("naniscript.lsp-error", callback)] /\
      forall context w'',
        let c := trace (exec host (callback context) w'') in
        exists now,
          clockReads c = [now] /\
          measurementWrites c =
            [(context, "secondsSinceStart", (now - startTime) # 1000)] /\
          propertyWrites c = [] /\
          displayWrites c = [] /\
          propertiesReplaced c = [] /\
          ((startTime <= now)%Z -> (0 <= (now - startTime) # 1000)%Q).
Proof.
  cbv zeta.
  destruct (configureTelemetry_runs host client w) as [_ HC].
  destruct (exec host (configureTelemetry client) w) as [o t wf].
  cbn [trace] in *. shapes.
  exists startTime, (errorHandler startTime fallback).
  split; [reflexivity | split; [reflexivity | ]].
  intros w'. cbn.
  eexists. split; [reflexivity | ].
  intros context w''. cbn.
  destruct (host DateNow w'') as [now w3]; cbn.
  exists now. repeat split.
  intro Hclock. unfold Qle. cbn. lia.
Qed.

(** X13.  Every run executes one command, [dotnet.acquire], asking on
    behalf of the extension [Elringus.naninovel]; and when the command
    gives no runtime, the version named in the error message is the
    version that was asked for. *)
Theorem failure_names_requested_version (context : ExtensionContext)
  (channel : OutputChannel) (w : World) :
  let r := exec host (launchLanguageService context channel) w in
  exists request,
    commandsExecuted (trace r) = [("dotnet.acquire", request)] /\
    requestingExtensionId request = "Elringus.naninovel" /\
    (In (Fulfilled None) (acquisitions (trace r)) ->
     outcome r =
       Threw (NewError
                ("Failed to install .NET runtime v" ++ version request
                 ++ "."))).
Proof.
  launched; observeAll; eexists; finish.
Qed.

(** The run of the exported entry point against a window that settles
    the promise as the task ends. *)
Lemma launchLanguageServiceWithProgressReport_run
  (window : forall X, windowE X -> World -> X * World)
  (context : ExtensionContext) (channel : OutputChannel) (w : World) :
  (forall options task w',
     fst (window _ (WithProgress options task) w') =
     settle (outcome (exec host task w'))) ->
  let r := exec window
             (launchLanguageServiceWithProgressReport context channel) w in
  let inner := exec host (launchLanguageService context channel) w in
  trace r =
    [ Called (WithProgress
                {| title := "Launching Naninovel language service...";
                   location := Notification |}
                (launchLanguageService context channel))
        (settle (outcome inner)) ] /\
  outcome r = outcome inner.
Proof.
  intros Hwindow. cbv zeta.
  unfold launchLanguageServiceWithProgressReport.
  rewrite exec_bind, exec_call. cbn [outcome trace final].
  rewrite Hwindow.
  destruct (outcome (exec host (launchLanguageService context channel) w))
    as [[] | thrown]; split; reflexivity.
Qed.

(** X11.  The exported entry point makes one call,
    [vscode.window.withProgress], for a notification titled
    [Launching Naninovel language service...] whose task is
    [launchLanguageService] on the same arguments.  If the window
    settles the promise as the task ends, the entry point ends as
    [launchLanguageService] does: it returns when that returns and
    throws the same value when that throws. *)
Theorem progress_report_is_transparent
  (window : forall X, windowE X -> World -> X * World)
  (context : ExtensionContext) (channel : OutputChannel) (w : World) :
  (forall options task w',
     fst (window _ (WithProgress options task) w') =
     settle (outcome (exec host task w'))) ->
  let r := exec window
             (launchLanguageServiceWithProgressReport context channel) w in
  let inner := exec host (launchLanguageService context channel) w in
  trace r =
    [ Called (WithProgress
                {| title := "Launching Naninovel language service...";
                   location := Notification |}
                (launchLanguageService context channel))
        (settle (outcome inner)) ] /\
  outcome r = outcome inner.
Proof.
  exact (launchLanguageServiceWithProgressReport_run
           window context channel w).
Qed.

(** X12.  Through such a window the setup errors reach the caller of
    the exported entry point: it throws the error naming runtime
    version 3.1 when the acquisition command gave no runtime, and the
    error naming the path when [existsSync] answered [false] for it;
    and it returns exactly when the task logged that the service is
    ready. *)
Theorem entry_point_surfaces_setup_errors
  (window : forall X, windowE X -> World -> X * World)
  (context : ExtensionContext) (channel : OutputChannel) (w : World) :
  (forall options task w',
     fst (window _ (WithProgress options task) w') =
     settle (outcome (exec host task w'))) ->
  let r := exec window
             (launchLanguageServiceWithProgressReport context channel) w in
  let t := trace (exec host (launchLanguageService context channel) w) in
  (In (Fulfilled None) (acquisitions t) ->
   outcome r = Threw (NewError "Failed to install .NET runtime v3.1.")) /\
  (forall path,
     In (path, false) (existsChecks t) ->
     outcome r =
       Threw (NewError
                ("Language server does not exist at '" ++ path ++ "'."))) /\
  (outcome r = Returned tt <->
   In (LevelInfo, "Naninovel language service ready.") (logs t)).
Proof.
  intros Hwindow.
  destruct (launchLanguageServiceWithProgressReport_run
              window context channel w Hwindow) as [_ Hout].
  cbv zeta in *. rewrite Hout. clear Hout Hwindow.
  launched; observeAll; finish;
    try match goal with H : _ = _ |- _ => discriminate H end.
Qed.

End Further.

(** * The further properties on the POSIX hosts *)

(** X1 on the host whose acquisition command is not registered. *)
Lemma acquisition_rejection_propagates_witness :
  let r := Posix.launch PosixCases.commandMissing in
  outcome r = Threw (Rejection "command 'dotnet.acquire' not found") /\
  envReads (trace r) = [] /\
  existsChecks (trace r) = [] /\
  watchers (trace r) = [] /\
  constructions (trace r) = [].
Proof.
  apply (@acquisition_rejection_propagates Posix.platform nat
           (Posix.host PosixCases.commandMissing)
           Posix.extensionPath "Naninovel" 0%nat
           "command 'dotnet.acquire' not found").
  left. reflexivity.
Defined.

(** X2 on the host whose server never becomes ready. *)
Lemma readiness_rejection_after_registration_witness :
  let r := Posix.launch Posix.neverReady in
  outcome r = Threw (Rejection "server exited") /\
  (exists started,
     starts (trace r) = [(0%nat, started)] /\
     pushes (trace r) = [(Posix.extensionPath, started)]) /\
  ~ In (LevelInfo, "Naninovel language service ready.") (logs (trace r)).
Proof.
  apply (@readiness_rejection_after_registration Posix.platform nat
           (Posix.host Posix.neverReady)
           Posix.extensionPath "Naninovel" 0%nat 0%nat "server exited").
  left. reflexivity.
Defined.

(** X4 on the host whose override is a relative path. *)
Lemma logged_paths_are_those_used_witness :
  let t := trace (Posix.launch Posix.overridden) in
  In (LevelDebug, "Found dotnet command at '/usr/share/dotnet/dotnet'.")
     (logs t) /\
  In (LevelDebug,
      "Found language server at '/home/dev/NaninovelVSCode/bin/Server.dll'.")
     (logs t).
Proof.
  cbv zeta.
  destruct (@logged_paths_are_those_used Posix.platform nat
              (Posix.host Posix.overridden)
              Posix.extensionPath "Naninovel" 0%nat
              "naniscript" "NaniScript"
              {| run := executableFor "/usr/share/dotnet/dotnet"
                          "/home/dev/NaninovelVSCode/bin/Server.dll";
                 debug := executableFor "/usr/share/dotnet/dotnet"
                            "/home/dev/NaninovelVSCode/bin/Server.dll" |}
              (clientOptionsFor (platform := Posix.platform)
                 "Naninovel" "**/*.nani") 0%nat
              (or_introl eq_refl))
    as [languageServerPath [Hargs [Hdotnet Hserver]]].
  injection Hargs as <-.
  split; [exact Hdotnet | exact Hserver].
Defined.

(** X6 on the host with everything in place. *)
Lemma handlers_installed_before_start_witness :
  let t := trace (Posix.launch Posix.installed) in
  starts t = [(0%nat, 3%nat)] /\
  (exists handler, installedHandlers (beforeStart t) = [(0%nat, handler)]) /\
  (exists listener, listeners (beforeStart t) = [(0%nat, listener)]) /\
  installedHandlers t = installedHandlers (beforeStart t) /\
  listeners t = listeners (beforeStart t) /\
  starts (beforeStart t) = [].
Proof.
  cbv zeta. split; [reflexivity | ].
  apply (@handlers_installed_before_start Posix.platform nat
           (Posix.host Posix.installed)
           Posix.extensionPath "Naninovel" 0%nat 0%nat 3%nat).
  left. reflexivity.
Defined.

(** X7 on the host whose override is the empty string. *)
Lemma only_the_server_path_is_checked_witness :
  let t := trace (Posix.launch Posix.emptyOverride) in
  existsChecks t = [(EmptyString, false)] /\
  (envReads t =
     [("NANINOVEL_LANGUAGE_SERVER_PATH", Some EmptyString)] /\
   absolutePaths t = []
   \/
   envReads t = [("NANINOVEL_LANGUAGE_SERVER_PATH", None)] /\
   absolutePaths t = [("server/NaninovelLanguageServer.dll", EmptyString)]).
Proof.
  cbv zeta. split; [reflexivity | ].
  apply (@only_the_server_path_is_checked Posix.platform nat
           (Posix.host Posix.emptyOverride)
           Posix.extensionPath "Naninovel" 0%nat EmptyString false).
  left. reflexivity.
Defined.

(** X8 on the host with everything in place. *)
Lemma environment_is_read_once_witness :
  let t := trace (Posix.launch Posix.installed) in
  envReads t = [("NANINOVEL_LANGUAGE_SERVER_PATH", None)] /\
  exists r, acquisitions t = [Fulfilled (Some r)].
Proof.
  cbv zeta.
  destruct (@environment_is_read_once Posix.platform nat
              (Posix.host Posix.installed)
              Posix.extensionPath "Naninovel" 0%nat
              "NANINOVEL_LANGUAGE_SERVER_PATH" None (or_introl eq_refl))
    as [_ [Hreads Hacquired]].
  split; [exact Hreads | exact Hacquired].
Defined.

(** X11 on the window over the host whose server never becomes ready. *)
Lemma progress_report_is_transparent_witness :
  outcome (PosixCases.report Posix.neverReady) =
    Threw (Rejection "server exited") /\
  length (trace (PosixCases.report Posix.neverReady)) = 1%nat.
Proof.
  destruct (@progress_report_is_transparent Posix.platform nat
              (Posix.host Posix.neverReady)
              (withProgress (Posix.host Posix.neverReady))
              Posix.extensionPath "Naninovel" 0%nat
              (fun _ _ _ => eq_refl))
    as [Htrace Hout].
  split.
  - exact Hout.
  - unfold PosixCases.report. rewrite Htrace. reflexivity.
Defined.

(** X12 on the window over the host whose acquisition gives no runtime. *)
Lemma entry_point_surfaces_setup_errors_witness :
  outcome (PosixCases.report Posix.noRuntime) =
    Threw (NewError "Failed to install .NET runtime v3.1.").
Proof.
  apply (@entry_point_surfaces_setup_errors Posix.platform nat
           (Posix.host Posix.noRuntime)
           (withProgress (Posix.host Posix.noRuntime))
           Posix.extensionPath "Naninovel" 0%nat
           (fun _ _ _ => eq_refl)).
  left. reflexivity.
Defined.
